(** * CustomProc: the processor core of an IDA module for a custom VM

    A shallow embedding of [CustomProc.py] (class [CustomProcessor]):
    the instruction matcher [notify_ana], the control-flow resolver
    [notify_emu], the operand renderer [notify_out_operand] and the
    instruction renderer [notify_out_insn], followed by the properties
    proved about them.

    Python integers are unbounded, so every integer of the source is a [Z].
    The host ([idaapi]) is not part of the module: what it answers
    ([get_byte], name resolution) is a variable of the sections below, and
    what the module asks it to print is recorded as a log of calls. *)

From Stdlib Require Import ZArith List String Ascii Bool Lia.
Import ListNotations.

Open Scope string_scope.
Open Scope list_scope.
Open Scope Z_scope.

(** ** Python values, exceptions and subscripts *)

Module Py.

Inductive exn := IndexError | KeyError.

(** The outcome of a Python call: a value, or an exception on its way up. *)
Inductive res (A : Type) :=
| Ok (a : A)
| Raise (e : exn).
Arguments Ok {A} a.
Arguments Raise {A} e.

(** What [notify_ana] hands back: [insn.size] (an int) or [False]. *)
Inductive val :=
| Int (n : Z)
| Bool (b : bool).

(** Python truth value: [0] and [False] are both false. *)
Definition truth (v : val) : bool :=
  match v with
  | Int n => negb (n =? 0)
  | Bool b => b
  end.

(** [l[i]] on a list: a negative subscript counts from the end, anything
    outside [-len l .. len l - 1] raises [IndexError]. *)
Definition getitem {A} (l : list A) (i : Z) : res A :=
  let n := Z.of_nat (List.length l) in
  let j := if i <? 0 then i + n else i in
  if (0 <=? j) && (j <? n) then
    match nth_error l (Z.to_nat j) with
    | Some x => Ok x
    | None => Raise IndexError
    end
  else Raise IndexError.

(** [enumerate(l)], counting from [k]. *)
Fixpoint enumerate_from {A} (k : Z) (l : list A) : list (Z * A) :=
  match l with
  | [] => []
  | x :: l' => (k, x) :: enumerate_from (k + 1) l'
  end.

Definition enumerate {A} (l : list A) : list (Z * A) := enumerate_from 0 l.

(** A dict with integer keys, kept in the order [items()] walks it. *)
Fixpoint dict_get {A} (d : list (Z * A)) (k : Z) : res A :=
  match d with
  | [] => Raise KeyError
  | (k', v) :: d' => if k' =? k then Ok v else dict_get d' k
  end.

(** [x in l] for a list of strings; [None] is in no such list. *)
Definition str_in (x : option string) (l : list string) : bool :=
  match x with
  | Some s => existsb (String.eqb s) l
  | None => false
  end.

End Py.

(** ** The part of [idaapi] the module touches *)

Module Ida.

(** Feature bits of an instruction ([CF_*]). *)
Definition CF_STOP : Z := 0x1.
Definition CF_JUMP : Z := 0x4000.
Definition CF_USE1 : Z := 0x100.
Definition CF_USE2 : Z := 0x200.

(** Operand types ([o_*]) and operand widths ([dt_*]). *)
Definition o_void : Z := 0.
Definition o_reg : Z := 1.
Definition o_mem : Z := 2.
Definition o_phrase : Z := 3.
Definition o_displ : Z := 4.
Definition o_imm : Z := 5.
Definition o_far : Z := 6.
Definition o_near : Z := 7.
Definition o_idpspec0 : Z := 8.

Definition dt_byte : Z := 0.
Definition dt_word : Z := 1.
Definition dt_dword : Z := 2.

Definition OOFW_IMM : Z := 0.
Definition BADADDR : Z := 0xFFFFFFFF.
Definition COLOR_ERROR : Z := 0x12.

(** Code cross-reference kinds ([fl_*]) used by the module. *)
Inductive cref_t := fl_JN | fl_F.

(** [get_byte] over a byte stream loaded at address 0: an address that
    holds no byte reads as [0xFF]. *)
Definition get_byte (stream : list Z) (ea : Z) : Z :=
  if ea <? 0 then 0xFF else nth (Z.to_nat ea) stream 0xFF.

End Ida.

(** One operand record ([op_t]); the meaning of a field depends on [type]. *)
Module op.
Record t := mk {
  type : Z;
  reg : Z;
  value : Z;
  addr : Z;
  dtyp : Z;
  specflag1 : Z;
  specflag2 : Z;
  specflag3 : Z;
  specflag4 : Z
}.

(** An unused operand slot. *)
Definition void : t := mk Ida.o_void 0 0 0 0 0 0 0 0.
End op.

(** The instruction record ([insn_t]) the host passes to every callback. *)
Module insn.
Record t := mk {
  ea : Z;
  itype : Z;
  size : Z;
  ops : list op.t
}.

Definition set_itype (v : Z) (i : t) : t := mk (ea i) v (size i) (ops i).
Definition set_size (v : Z) (i : t) : t := mk (ea i) (itype i) v (ops i).

(** [insn[n]]: the record always carries its operand slots; a slot the
    list does not reach is void. *)
Definition getitem (i : t) (n : nat) : op.t := nth n (ops i) op.void.
End insn.

(** An instruction class of [CustomProcInstructionSet.Instructions], seen
    through the four attributes the core reads and the [emulate] method it
    calls.  [emulate] fills the operands of the record it is given and may
    read the program bytes through the host. *)
Module cls.
Record t := mk {
  opcode : Z;
  name : string;
  feature : Z;
  size : Z;
  emulate : (Z -> Z) -> insn.t -> insn.t
}.
End cls.

(** ** The instruction matcher *)

Section Matcher.

(** [instruction_class_list], in the order the class body collected it. *)
Variable instruction_class_list : list cls.t.

(** The host's [get_byte]. *)
Variable get_byte : Z -> Z.

(** [_init_instructions]: [self.instructions[idx] = ins] for every
    enumerated class. *)
Definition _init_instructions : list (Z * cls.t) :=
  Py.enumerate instruction_class_list.

(** The [for idx, cls in self.instructions.items()] loop of [notify_ana],
    over the items still to visit.  The record is threaded through: each
    assignment to [insn] happens before the next subscript is evaluated. *)
Fixpoint ana_items (instructions items : list (Z * cls.t)) (opcode : Z)
    (insn : insn.t) : insn.t * Py.res Py.val :=
  match items with
  | [] => (insn, Py.Ok (Py.Bool false))
  | (idx, c) :: items' =>
      if cls.opcode c =? opcode then
        let insn := insn.set_itype idx insn in
        match Py.dict_get instructions idx with
        | Py.Raise e => (insn, Py.Raise e)
        | Py.Ok d =>
            let insn := insn.set_size (cls.size d) insn in
            match Py.dict_get instructions idx with
            | Py.Raise e => (insn, Py.Raise e)
            | Py.Ok d' =>
                let insn := cls.emulate d' get_byte insn in
                (insn, Py.Ok (Py.Int (insn.size insn)))
            end
        end
      else ana_items instructions items' opcode insn
  end.

Definition notify_ana (insn : insn.t) : insn.t * Py.res Py.val :=
  let ea := insn.ea insn in
  let opcode := get_byte ea in
  ana_items _init_instructions _init_instructions opcode insn.

(** The record [notify_ana] leaves behind when class [c] at index [idx]
    is the one it picks: [itype] and [size] stored, then [emulate] run. *)
Definition decoded (idx : Z) (c : cls.t) (i : insn.t) : insn.t :=
  cls.emulate c get_byte (insn.set_size (cls.size c) (insn.set_itype idx i)).

End Matcher.

(** ** Calls on the host, recorded in order

    The callbacks below talk to the host by calling it: [insn.add_cref],
    [outctx.out_printf] and the like.  A callback is modelled as the log of
    the calls it made, together with what it returned or the exception that
    stopped it; the calls made before an exception stay in the log. *)

Module Log.

Definition t (E A : Type) : Type := list E * Py.res A.

Definition ret {E A} (a : A) : t E A := ([], Py.Ok a).

Definition call {E} (e : E) : t E unit := ([e], Py.Ok tt).

Definition lift {E A} (r : Py.res A) : t E A := ([], r).

Definition bind {E A B} (m : t E A) (k : A -> t E B) : t E B :=
  match m with
  | (w, Py.Ok a) => let (w', r) := k a in (w ++ w', r)
  | (w, Py.Raise e) => (w, Py.Raise e)
  end.

(** A Python [if] with no [else]. *)
Definition when {E} (b : bool) (m : t E unit) : t E unit :=
  if b then m else ret tt.

End Log.

Declare Scope log_scope.
Delimit Scope log_scope with log.
Notation "x <- m ;; k" := (Log.bind m (fun x => k))
  (at level 100, m at next level, right associativity) : log_scope.
Notation "m ;; k" := (Log.bind m (fun _ => k))
  (at level 100, right associativity) : log_scope.

(** ** The control-flow resolver *)

(** One [insn.add_cref(to, opoff, type)]: a code cross-reference from the
    address of the instruction. *)
Record cref := mk_cref {
  cref_from : Z;
  cref_to : Z;
  cref_opoff : Z;
  cref_type : Ida.cref_t
}.

Section Resolver.

Variable instruction_class_list : list cls.t.

(** [instruc], built in the class body: name and feature of every class.
    [instruc_start] is 0 and [instruc_end] is [len(instruc)]. *)
Definition instruc : list (string * Z) :=
  map (fun c => (cls.name c, cls.feature c)) instruction_class_list.

Definition instruc_start : Z := 0.
Definition instruc_end : Z := Z.of_nat (List.length instruc).

(** The host's lookup of the canonical entry of an instruction: none when
    [itype] lies outside [instruc_start .. instruc_end - 1]. *)
Definition canon_entry (i : insn.t) : option (string * Z) :=
  if (instruc_start <=? insn.itype i) && (insn.itype i <? instruc_end)
  then nth_error instruc (Z.to_nat (insn.itype i - instruc_start))
  else None.

(** [insn.get_canon_feature()]: 0 for a non-canonical [itype]. *)
Definition get_canon_feature (i : insn.t) : Z :=
  match canon_entry i with
  | Some (_, ft) => ft
  | None => 0
  end.

(** [insn.get_canon_mnem()]: [None] for a non-canonical [itype]. *)
Definition get_canon_mnem (i : insn.t) : option string :=
  match canon_entry i with
  | Some (nm, _) => Some nm
  | None => None
  end.

Definition add_cref (i : insn.t) (to opoff : Z) (ty : Ida.cref_t)
    : Log.t cref unit :=
  Log.call (mk_cref (insn.ea i) to opoff ty).

(** A Python condition on an int: true when it is not 0. *)
Definition nonzero (n : Z) : bool := negb (n =? 0).

Definition notify_emu (i : insn.t) : Log.t cref bool :=
  (let ft := get_canon_feature i in
   let a := op.addr (insn.getitem i 0) in
   if nonzero (Z.land ft Ida.CF_JUMP) then
     add_cref i a 0 Ida.fl_JN ;;
     Log.when (negb (Py.str_in (get_canon_mnem i) ["jmp"; "vm_jmp"]))
       (add_cref i (insn.ea i + insn.size i) 0 Ida.fl_F) ;;
     Log.ret true
   else if negb (nonzero (Z.land ft Ida.CF_STOP))
           && negb (nonzero (Z.land ft Ida.CF_JUMP)) then
     add_cref i (insn.ea i + insn.size i) 0 Ida.fl_F ;;
     Log.ret true
   else Log.ret true)%log.

End Resolver.

(** ** The renderers *)

(** The calls the renderers make on the output context. *)
Inductive out_call :=
| out_value (o : op.t) (outflags : Z)
| out_printf (s : string)
| out_register (name : string)
| out_long (v : Z) (radix : Z)
| out_name (o : op.t) (ea : Z) (off : Z) (expr : string)
| out_tagon (color : Z)
| out_tagoff (color : Z)
| out_mnem
| flush_outbuf.

Section Renderer.

Variable instruction_class_list : list cls.t.

(** [reg_names], filled from [registers_opcode] in the class body. *)
Variable reg_names : list string.

(** The "no register" value of [CustomProcInstructionSet.Registers]. *)
Variable NONE_REG : Z.

(** The host's symbol table: the expression [out_name_expr] would print
    for an operand and an address, if it finds one. *)
Variable name_expr : op.t -> Z -> Z -> option string.

Definition emit (c : out_call) : Log.t out_call unit := Log.call c.

(** [outctx.out_name_expr(op, ea, off)]: prints the expression and answers
    true, or prints nothing and answers false. *)
Definition out_name_expr (o : op.t) (ea off : Z) : Log.t out_call bool :=
  match name_expr o ea off with
  | Some s => (emit (out_name o ea off s) ;; Log.ret true)%log
  | None => Log.ret false
  end.

(** [outctx.out_register(self.reg_names[r])]: the subscript is evaluated
    first and may raise. *)
Definition out_reg_name (r : Z) : Log.t out_call unit :=
  (nm <- Log.lift (Py.getitem reg_names r) ;; emit (out_register nm))%log.

(** [if r != NONE_REG: out_register(reg_names[r]); out_printf(" + ")]. *)
Definition out_opt_reg (r : Z) : Log.t out_call unit :=
  Log.when (negb (r =? NONE_REG))
    (out_reg_name r ;; emit (out_printf " + "))%log.

Definition notify_out_operand (o : op.t) : Log.t out_call bool :=
  ((if op.type o =? Ida.o_imm then
      emit (out_value o Ida.OOFW_IMM)
    else if op.type o =? Ida.o_displ then
      emit (out_printf "[") ;;
      out_reg_name (op.reg o) ;;
      emit (out_printf " + ") ;;
      out_opt_reg (op.value o) ;;
      emit (out_long (op.addr o) 16) ;;
      emit (out_printf "]")
    else if op.type o =? Ida.o_reg then
      out_reg_name (op.reg o)
    else if (op.type o =? Ida.o_near) || (op.type o =? Ida.o_mem) then
      ok <- out_name_expr o (op.addr o) Ida.BADADDR ;;
      Log.when (negb ok)
        (emit (out_tagon Ida.COLOR_ERROR) ;;
         emit (out_long (op.addr o) 16) ;;
         emit (out_tagoff Ida.COLOR_ERROR))
    else if op.type o =? Ida.o_idpspec0 then
      (if op.dtyp o =? Ida.dt_byte then emit (out_printf "byte ptr [")
       else if op.dtyp o =? Ida.dt_word then emit (out_printf "word ptr [")
       else if op.dtyp o =? Ida.dt_dword then emit (out_printf "dword ptr [")
       else emit (out_printf "[")) ;;
      out_reg_name (op.specflag1 o) ;;
      emit (out_printf " + ") ;;
      out_opt_reg (op.specflag2 o) ;;
      out_opt_reg (op.specflag3 o) ;;
      out_opt_reg (op.specflag4 o) ;;
      emit (out_long (op.value o) 16) ;;
      emit (out_printf "]")
    else Log.ret tt) ;;
   Log.ret true)%log.

(** [outctx.out_one_operand(n)]: the host comes back to the module's own
    operand callback with operand slot [n] of the instruction. *)
Definition out_one_operand (i : insn.t) (n : nat) : Log.t out_call bool :=
  notify_out_operand (insn.getitem i n).

(** [notify_out_insn]; [i] is [outctx.insn].  The method has no [return]:
    it answers [None]. *)
Definition notify_out_insn (i : insn.t) : Log.t out_call unit :=
  (let ft := get_canon_feature instruction_class_list i in
   emit out_mnem ;;
   Log.when (nonzero (Z.land ft Ida.CF_USE1))
     (out_one_operand i 0 ;; Log.ret tt) ;;
   Log.when (nonzero (Z.land ft Ida.CF_USE2))
     (emit (out_printf ", ") ;; out_one_operand i 1 ;; Log.ret tt) ;;
   emit flush_outbuf)%log.

End Renderer.

(** ** Display text of a log of output calls

    What the calls put on the line, colour tags left out.  The text of the
    mnemonic and of an immediate are the host's own formats and are taken
    as given. *)

Section Text.

(** What [out_mnem] prints for the instruction at hand. *)
Variable mnem_text : string.

(** What [out_value] prints for an operand. *)
Variable value_text : op.t -> Z -> string.

Definition hex_digit (d : Z) : ascii :=
  nth (Z.to_nat d) (list_ascii_of_string "0123456789ABCDEF") "0"%char.

Fixpoint hex_go (fuel : nat) (n : Z) (acc : string) : string :=
  match fuel with
  | O => acc
  | S fuel' =>
      let acc' := String (hex_digit (n mod 16)) acc in
      if n / 16 =? 0 then acc' else hex_go fuel' (n / 16) acc'
  end.

(** [out_long(v, 16)]: the digits of [v] in base 16, no prefix. *)
Definition hex (v : Z) : string :=
  if v <? 0 then String.append "-" (hex_go (S (Z.to_nat (Z.log2 (- v)))) (- v) "")
  else hex_go (S (Z.to_nat (Z.log2 v))) v "".

Definition call_text (c : out_call) : string :=
  match c with
  | out_value o fl => value_text o fl
  | out_printf s => s
  | out_register nm => nm
  | out_long v _ => hex v
  | out_name _ _ _ expr => expr
  | out_tagon _ | out_tagoff _ | flush_outbuf => ""
  | out_mnem => mnem_text
  end.

Definition text_of (w : list out_call) : string :=
  String.concat "" (map call_text w).

End Text.

(** [out_mnem()] as the host's SDK documents it, for the field width it uses
    when called without arguments (8): the mnemonic, then spaces up to the
    width, one space at least. *)
Definition out_mnem_default (mnem : string) : string :=
  String.append mnem
    (string_of_list_ascii
       (repeat " "%char (Nat.max 1 (8 - String.length mnem)))).

(** ** The specification's wording, for comparison with the code *)


(** The host takes an answer of [notify_ana] as "no instruction here" when
    it is false as a Python value. *)
Definition not_an_instruction (r : Py.res Py.val) : bool :=
  match r with
  | Py.Ok v => negb (Py.truth v)
  | Py.Raise _ => false
  end.

(** The calls an optional register slot contributes, once its name is
    known: none for the sentinel, the name and [" + "] otherwise. *)
Definition slot_calls (NONE_REG r : Z) (nm : string) : list out_call :=
  if r =? NONE_REG then [] else [out_register nm; out_printf " + "].

(** The size prefix section 4.3 gives for a width tag. *)
Definition size_prefix (dtyp : Z) : string :=
  if dtyp =? Ida.dt_byte then "byte ptr "
  else if dtyp =? Ida.dt_word then "word ptr "
  else if dtyp =? Ida.dt_dword then "dword ptr "
  else "".

(** [MultiBaseSum] as section 4.3 words it: the size prefix, then the
    bracketed sum of the register terms in slot order and of the offset in
    hexadecimal.  [n1] .. [n4] are the names of the four slots. *)
Definition MultiBaseSum_spec (NONE_REG : Z) (o : op.t) (n1 n2 n3 n4 : string)
    : list out_call :=
  [out_printf (String.append (size_prefix (op.dtyp o)) "[");
   out_register n1; out_printf " + "]
  ++ slot_calls NONE_REG (op.specflag2 o) n2
  ++ slot_calls NONE_REG (op.specflag3 o) n3
  ++ slot_calls NONE_REG (op.specflag4 o) n4
  ++ [out_long (op.value o) 16; out_printf "]"].

(** [Displacement] as section 4.3 words it: base, optional index, offset. *)
Definition Displacement_spec (NONE_REG : Z) (o : op.t) (base index : string)
    : list out_call :=
  [out_printf "["; out_register base; out_printf " + "]
  ++ slot_calls NONE_REG (op.value o) index
  ++ [out_long (op.addr o) 16; out_printf "]"].

(** The instruction line as section 4.4 words it: the mnemonic; a single
    space and operand 1 when it is used; [", "] and operand 2 when it is
    used as well.  [w0] and [w1] are the rendered forms of the operands. *)
Definition renderInstruction_spec (ft : Z) (w0 w1 : list out_call)
    : list out_call :=
  [out_mnem]
  ++ (if nonzero (Z.land ft Ida.CF_USE1) then
        out_printf " " :: w0
        ++ (if nonzero (Z.land ft Ida.CF_USE2) then out_printf ", " :: w1
            else [])
      else [])
  ++ [flush_outbuf].

(** ** A small instruction set to run the definitions on

    The real table is [CustomProcInstructionSet.Instructions]; these
    classes have its shape. *)

Module Example.

(** [emulate] of a class with no operand. *)
Definition emulate_none (_ : Z -> Z) (i : insn.t) : insn.t := i.

(** [emulate] of a class with one immediate byte after the opcode. *)
Definition emulate_imm8 (get_byte : Z -> Z) (i : insn.t) : insn.t :=
  insn.mk (insn.ea i) (insn.itype i) (insn.size i)
    [op.mk Ida.o_imm 0 (get_byte (insn.ea i + 1)) 0 Ida.dt_byte 0 0 0 0].

(** [emulate] of a class with a 16-bit little-endian near target. *)
Definition emulate_near16 (get_byte : Z -> Z) (i : insn.t) : insn.t :=
  insn.mk (insn.ea i) (insn.itype i) (insn.size i)
    [op.mk Ida.o_near 0 0
       (get_byte (insn.ea i + 1) + 256 * get_byte (insn.ea i + 2))
       Ida.dt_word 0 0 0 0].

Definition nop : cls.t := cls.mk 0x00 "nop" 0 1 emulate_none.
Definition ldi : cls.t := cls.mk 0x01 "ldi" Ida.CF_USE1 2 emulate_imm8.
Definition jmp : cls.t :=
  cls.mk 0x02 "jmp" (Z.lor Ida.CF_USE1 (Z.lor Ida.CF_JUMP Ida.CF_STOP)) 3
    emulate_near16.
Definition jz : cls.t :=
  cls.mk 0x03 "jz" (Z.lor Ida.CF_USE1 Ida.CF_JUMP) 3 emulate_near16.
Definition hlt : cls.t := cls.mk 0x04 "hlt" Ida.CF_STOP 1 emulate_none.
(** A jump whose feature declares no operand slot. *)
Definition jr : cls.t := cls.mk 0x05 "jr" Ida.CF_JUMP 1 emulate_none.

(** A class with two operands: a register and a memory target. *)
Definition emulate_reg_mem (get_byte : Z -> Z) (i : insn.t) : insn.t :=
  insn.mk (insn.ea i) (insn.itype i) (insn.size i)
    [op.mk Ida.o_reg (get_byte (insn.ea i + 1)) 0 0 Ida.dt_byte 0 0 0 0;
     op.mk Ida.o_mem 0 0 (get_byte (insn.ea i + 2)) Ida.dt_byte 0 0 0 0].
Definition mov : cls.t :=
  cls.mk 0x06 "mov" (Z.lor Ida.CF_USE1 Ida.CF_USE2) 3 emulate_reg_mem.

Definition table : list cls.t := [nop; ldi; jmp; jz; hlt; jr; mov].

Definition reg_names : list string := ["R0"; "R1"; "R2"; "R3"; "CS"; "DS"].
Definition NONE_REG : Z := 0xFF.

(** A symbol table that knows one name. *)
Definition name_expr (_ : op.t) (ea _ : Z) : option string :=
  if ea =? 0x200 then Some "loc_200" else None.

(** A fresh record at [ea], as the host hands it to [notify_ana]. *)
Definition fresh (ea : Z) : insn.t := insn.mk ea 0 0 [].

End Example.

(** ** Start-up: the register index and the processor object *)

(** A dict with string keys: [d[k] = v] replaces the value of a key that is
    there and adds the key at the end otherwise; [d[k]] raises [KeyError]
    for a key that is not there. *)
Module StrDict.

Definition t : Type := list (string * Z).

Fixpoint set (d : t) (k : string) (v : Z) : t :=
  match d with
  | [] => [(k, v)]
  | (k', v') :: d' =>
      if String.eqb k' k then (k', v) :: d' else (k', v') :: set d' k v
  end.

Fixpoint get (d : t) (k : string) : Py.res Z :=
  match d with
  | [] => Py.Raise Py.KeyError
  | (k', v) :: d' => if String.eqb k' k then Py.Ok v else get d' k
  end.

End StrDict.

(** What [__init__] leaves in the processor object. *)
Module processor.
Record t := mk {
  instructions : list (Z * cls.t);
  reg_ids : StrDict.t;
  reg_first_sreg : Z;
  reg_code_sreg : Z;
  reg_last_sreg : Z;
  reg_data_sreg : Z
}.
End processor.

Section Init.

Variable instruction_class_list : list cls.t.
Variable reg_names : list string.

(** The loop of [_init_registers]: [self.reg_ids[reg] = i] for every
    enumerated name, onto the dict built so far. *)
Definition reg_ids_loop (items : list (Z * string)) (d : StrDict.t)
    : StrDict.t :=
  fold_left (fun d ir => StrDict.set d (snd ir) (fst ir)) items d.

Definition reg_ids : StrDict.t :=
  reg_ids_loop (Py.enumerate reg_names) [].

(** [_init_registers]: the index, then the two segment registers, each read
    once and stored in two attributes.  [reg_ids["CS"]] is evaluated before
    [reg_ids["DS"]]. *)
Definition _init_registers : Py.res (StrDict.t * (Z * Z)) :=
  match StrDict.get reg_ids "CS" with
  | Py.Raise e => Py.Raise e
  | Py.Ok cs =>
      match StrDict.get reg_ids "DS" with
      | Py.Raise e => Py.Raise e
      | Py.Ok ds => Py.Ok (reg_ids, (cs, ds))
      end
  end.

(** [__init__], and with it [PROCESSOR_ENTRY]: the instruction index, then
    the registers. *)
Definition PROCESSOR_ENTRY : Py.res processor.t :=
  let instructions := _init_instructions instruction_class_list in
  match _init_registers with
  | Py.Raise e => Py.Raise e
  | Py.Ok (ids, (cs, ds)) =>
      Py.Ok (processor.mk instructions ids cs cs ds ds)
  end.

End Init.

(** ** The decode of an instruction definition *)

(** What a decode gives: a size and the operands, or the truncation
    condition of section 7. *)
Inductive decode_result :=
| Decoded (size : Z) (operands : list op.t)
| TruncatedInstruction.

(** Modelled from the spec: the decode capability of an instruction
    definition.  The classes of [CustomProcInstructionSet.Instructions] and
    their [emulate] methods are not among the sources.  Section 3 gives the
    capability as [decode(bytes, address) -> (size, operandList)]; section
    4.1 has it never read past the declared size, and fail with
    [TruncatedInstruction] when it would need bytes beyond the available
    stream.  [available] is the number of bytes of the stream, which starts
    at address 0; [operands] makes the operand list from the [size] bytes
    of the instruction. *)
Definition decode_spec (size : Z) (operands : list Z -> list op.t)
    (available : Z) (get_byte : Z -> Z) (address : Z) : decode_result :=
  if available <? address + size then TruncatedInstruction
  else Decoded size
         (operands (map (fun k => get_byte (address + Z.of_nat k))
                      (seq 0 (Z.to_nat size)))).

(** Modelled from the spec: the [emulate] method of a class whose decode is
    [decode_spec].  Section 7 has a truncation reported the same way as an
    unrecognized opcode; after a match the code of [notify_ana] answers
    [insn.size], so the method reports the condition by leaving a size of 0
    and the operands as they were. *)
Definition emulate_spec (size : Z) (operands : list Z -> list op.t)
    (available : Z) (get_byte : Z -> Z) (i : insn.t) : insn.t :=
  match decode_spec size operands available get_byte (insn.ea i) with
  | Decoded sz ops => insn.mk (insn.ea i) (insn.itype i) sz ops
  | TruncatedInstruction => insn.mk (insn.ea i) (insn.itype i) 0 (insn.ops i)
  end.

(** A class with one immediate byte, decoded as the specification asks, on
    a stream of [available] bytes. *)
Module SpecExample.

Definition imm8_operands (bytes : list Z) : list op.t :=
  [op.mk Ida.o_imm 0 (nth 1 bytes 0) 0 Ida.dt_byte 0 0 0 0].

Definition ldi (available : Z) : cls.t :=
  cls.mk 0x01 "ldi" Ida.CF_USE1 2 (emulate_spec 2 imm8_operands available).

End SpecExample.

(** * Properties *)

(** ** Subscripts of an enumerated table *)

Lemma dict_get_enumerate_from {A} (l1 : list A) (c : A) (l2 : list A) (k : Z) :
  Py.dict_get (Py.enumerate_from k (l1 ++ c :: l2)) (k + Z.of_nat (List.length l1))
  = Py.Ok c.
Proof.
  revert k. induction l1 as [| x l1 IH]; intros k.
  - simpl. replace (k + 0) with k by lia. now rewrite Z.eqb_refl.
  - cbn [app Py.enumerate_from Py.dict_get List.length].
    destruct (Z.eqb_spec k (k + Z.of_nat (S (List.length l1)))) as [E | _];
      [lia |].
    replace (k + Z.of_nat (S (List.length l1)))
      with (k + 1 + Z.of_nat (List.length l1)) by lia.
    apply IH.
Qed.

Lemma dict_get_enumerate {A} (l1 : list A) (c : A) (l2 : list A) :
  Py.dict_get (Py.enumerate (l1 ++ c :: l2)) (Z.of_nat (List.length l1)) = Py.Ok c.
Proof. exact (dict_get_enumerate_from l1 c l2 0). Qed.

(** ** The instruction matcher *)

Section MatcherFacts.

Variable table : list cls.t.
Variable get_byte : Z -> Z.

Lemma ana_items_skip instructions l opcode i k rest :
  Forall (fun d => cls.opcode d <> opcode) l ->
  ana_items get_byte instructions (Py.enumerate_from k l ++ rest) opcode i
  = ana_items get_byte instructions rest opcode i.
Proof.
  intros H. revert k. induction H as [| d l Hd _ IH]; intros k; [reflexivity |].
  cbn [Py.enumerate_from app ana_items].
  destruct (Z.eqb_spec (cls.opcode d) opcode); [contradiction | apply IH].
Qed.

Lemma enumerate_from_app {A} (l1 l2 : list A) k :
  Py.enumerate_from k (l1 ++ l2)
  = Py.enumerate_from k l1 ++ Py.enumerate_from (k + Z.of_nat (List.length l1)) l2.
Proof.
  revert k. induction l1 as [| x l1 IH]; intros k.
  - simpl. now replace (k + 0) with k by lia.
  - cbn [app Py.enumerate_from List.length]. rewrite IH.
    now replace (k + 1 + Z.of_nat (List.length l1))
      with (k + Z.of_nat (S (List.length l1))) by lia.
Qed.

(** The first class whose opcode is the byte read at [ea] is decoded. *)
Lemma notify_ana_match l1 c l2 i :
  table = l1 ++ c :: l2 ->
  Forall (fun d => cls.opcode d <> get_byte (insn.ea i)) l1 ->
  cls.opcode c = get_byte (insn.ea i) ->
  notify_ana table get_byte i
  = (decoded get_byte (Z.of_nat (List.length l1)) c i,
     Py.Ok (Py.Int (insn.size (decoded get_byte (Z.of_nat (List.length l1)) c i)))).
Proof.
  intros -> Hl1 Hc. unfold notify_ana, _init_instructions.
  unfold Py.enumerate at 2. rewrite enumerate_from_app.
  rewrite ana_items_skip by assumption.
  cbn [Py.enumerate_from ana_items]. rewrite Hc, Z.eqb_refl.
  rewrite Z.add_0_l, dict_get_enumerate. reflexivity.
Qed.

(** With no such class the record comes back as it went in. *)
Lemma notify_ana_nomatch i :
  Forall (fun d => cls.opcode d <> get_byte (insn.ea i)) table ->
  notify_ana table get_byte i = (i, Py.Ok (Py.Bool false)).
Proof.
  intros H. unfold notify_ana, _init_instructions, Py.enumerate.
  rewrite <- (app_nil_r (Py.enumerate_from 0 table)).
  now rewrite ana_items_skip.
Qed.

(** Every table either has a first class with a given opcode or none. *)
Lemma first_match_split (opcode : Z) (l : list cls.t) :
  (exists l1 c l2,
      l = l1 ++ c :: l2 /\
      Forall (fun d => cls.opcode d <> opcode) l1 /\
      cls.opcode c = opcode)
  \/ Forall (fun d => cls.opcode d <> opcode) l.
Proof.
  induction l as [| d l IH]; [right; constructor |].
  destruct (Z.eq_dec (cls.opcode d) opcode) as [E | N].
  - left. exists [], d, l. repeat split; [constructor | exact E].
  - destruct IH as [(l1 & c & l2 & -> & H1 & Hc) | H].
    + left. exists (d :: l1), c, l2. repeat split; [now constructor | exact Hc].
    + right. now constructor.
Qed.

End MatcherFacts.

(** C3: [notify_ana] reads the byte at [insn.ea] and walks the table in
    order.  Either some class is the first whose opcode is that byte, and
    then the record comes back with [itype] set to the index of that class,
    [size] set to its size and its [emulate] applied, the answer being the
    size of the record; or no class has that opcode, and the answer is
    [False]. *)
Theorem notify_ana_first_match (table : list cls.t) (get_byte : Z -> Z)
    (i : insn.t) :
  (exists l1 c l2,
      table = l1 ++ c :: l2 /\
      Forall (fun d => cls.opcode d <> get_byte (insn.ea i)) l1 /\
      cls.opcode c = get_byte (insn.ea i) /\
      let idx := Z.of_nat (List.length l1) in
      let i' := decoded get_byte idx c i in
      i' = cls.emulate c get_byte (insn.mk (insn.ea i) idx (cls.size c) (insn.ops i)) /\
      notify_ana table get_byte i = (i', Py.Ok (Py.Int (insn.size i'))))
  \/ (Forall (fun d => cls.opcode d <> get_byte (insn.ea i)) table /\
      snd (notify_ana table get_byte i) = Py.Ok (Py.Bool false)).
Proof.
  destruct (first_match_split (get_byte (insn.ea i)) table)
    as [(l1 & c & l2 & Ht & Hl1 & Hc) | Hnone].
  - left. exists l1, c, l2. repeat split; try assumption.
    now apply notify_ana_match with (l2 := l2).
  - right. split; [assumption |]. now rewrite notify_ana_nomatch.
Qed.

(** C9: when no class has the opcode found at [insn.ea], [notify_ana]
    answers [False] and the record is the one it was given: [itype], [size]
    and the operands are untouched. *)
Theorem notify_ana_unrecognized_atomic (table : list cls.t)
    (get_byte : Z -> Z) (i : insn.t) :
  (forall d, In d table -> cls.opcode d <> get_byte (insn.ea i)) ->
  notify_ana table get_byte i = (i, Py.Ok (Py.Bool false)).
Proof.
  intros H. apply notify_ana_nomatch. now apply Forall_forall.
Qed.

Lemma notify_ana_unrecognized_atomic_witness :
  notify_ana Example.table (Ida.get_byte [0x7E; 0x01])
    (insn.mk 0 9 4 [op.mk Ida.o_reg 2 0 0 0 0 0 0 0])
  = (insn.mk 0 9 4 [op.mk Ida.o_reg 2 0 0 0 0 0 0 0], Py.Ok (Py.Bool false)).
Proof.
  apply notify_ana_unrecognized_atomic.
  intros d Hd. simpl in Hd.
  repeat (destruct Hd as [<- | Hd]; [vm_compute; discriminate |]).
  destruct Hd.
Defined.



(** ** The control-flow resolver *)

Lemma str_in_unconditional (m : option string) :
  Py.str_in m ["jmp"; "vm_jmp"] = true <-> In m [Some "jmp"; Some "vm_jmp"].
Proof.
  destruct m as [s |]; simpl.
  - rewrite !orb_true_iff, !String.eqb_eq. split.
    + intros [-> | [-> | H]]; [now left | now right; left | discriminate].
    + intros [H | [H | []]]; injection H as <-; [now left | now right; left].
  - split; [discriminate |]. intros [H | [H | []]]; discriminate.
Qed.

Lemma nonzero_true (n : Z) : nonzero n = true <-> n <> 0.
Proof.
  unfold nonzero. destruct (Z.eqb_spec n 0); simpl; split; intros; congruence.
Qed.

Lemma nonzero_false (n : Z) : nonzero n = false <-> n = 0.
Proof.
  unfold nonzero. destruct (Z.eqb_spec n 0); simpl; split; intros; congruence.
Qed.

(** C1: for a jump-class instruction [notify_emu] adds a jump reference
    ([fl_JN]) to the address held by operand 0; it adds a flow reference
    ([fl_F]) to [ea + size] after it exactly when the mnemonic is neither
    [jmp] nor [vm_jmp].  An unconditional jump gives the one jump
    reference, any other jump gives the jump and then the flow reference. *)
Theorem notify_emu_jump (table : list cls.t) (i : insn.t) :
  Z.land (get_canon_feature table i) Ida.CF_JUMP <> 0 ->
  let jump := mk_cref (insn.ea i) (op.addr (insn.getitem i 0)) 0 Ida.fl_JN in
  let flow := mk_cref (insn.ea i) (insn.ea i + insn.size i) 0 Ida.fl_F in
  (In (get_canon_mnem table i) [Some "jmp"; Some "vm_jmp"] ->
   notify_emu table i = ([jump], Py.Ok true))
  /\ (~ In (get_canon_mnem table i) [Some "jmp"; Some "vm_jmp"] ->
      notify_emu table i = ([jump; flow], Py.Ok true)).
Proof.
  intros Hj jump flow. apply nonzero_true in Hj.
  unfold notify_emu. rewrite Hj. split; intros Hm.
  - apply str_in_unconditional in Hm. now rewrite Hm.
  - destruct (Py.str_in (get_canon_mnem table i) ["jmp"; "vm_jmp"]) eqn:E;
      [| reflexivity].
    apply str_in_unconditional in E. contradiction.
Qed.

Lemma notify_emu_jump_witness :
  notify_emu Example.table (insn.mk 0x100 2 3 [op.mk Ida.o_near 0 0 0x200 0 0 0 0 0])
  = ([mk_cref 0x100 0x200 0 Ida.fl_JN], Py.Ok true)
  /\ notify_emu Example.table (insn.mk 0x100 3 3 [op.mk Ida.o_near 0 0 0x200 0 0 0 0 0])
     = ([mk_cref 0x100 0x200 0 Ida.fl_JN; mk_cref 0x100 0x103 0 Ida.fl_F],
        Py.Ok true).
Proof.
  split.
  - apply (notify_emu_jump Example.table
             (insn.mk 0x100 2 3 [op.mk Ida.o_near 0 0 0x200 0 0 0 0 0])).
    + vm_compute. discriminate.
    + simpl. now left.
  - apply (notify_emu_jump Example.table
             (insn.mk 0x100 3 3 [op.mk Ida.o_near 0 0 0x200 0 0 0 0 0])).
    + vm_compute. discriminate.
    + vm_compute. intros [H | [H | []]]; discriminate H.
Defined.

(** C4: for an instruction that is not jump-class, [notify_emu] adds the
    single flow reference from [ea] to [ea + size] when the instruction is
    not stop-class, and adds nothing when it is. *)
Theorem notify_emu_no_jump (table : list cls.t) (i : insn.t) :
  Z.land (get_canon_feature table i) Ida.CF_JUMP = 0 ->
  (Z.land (get_canon_feature table i) Ida.CF_STOP = 0 ->
   notify_emu table i
   = ([mk_cref (insn.ea i) (insn.ea i + insn.size i) 0 Ida.fl_F], Py.Ok true))
  /\ (Z.land (get_canon_feature table i) Ida.CF_STOP <> 0 ->
      notify_emu table i = ([], Py.Ok true)).
Proof.
  intros Hj. apply nonzero_false in Hj.
  unfold notify_emu. rewrite Hj. split; intros Hs.
  - apply nonzero_false in Hs. now rewrite Hs.
  - apply nonzero_true in Hs. now rewrite Hs.
Qed.

Lemma notify_emu_no_jump_witness :
  notify_emu Example.table (insn.mk 0x40 1 2 [op.mk Ida.o_imm 0 5 0 0 0 0 0 0])
  = ([mk_cref 0x40 0x42 0 Ida.fl_F], Py.Ok true)
  /\ notify_emu Example.table (insn.mk 0x40 4 1 []) = ([], Py.Ok true).
Proof.
  split.
  - apply (notify_emu_no_jump Example.table
             (insn.mk 0x40 1 2 [op.mk Ida.o_imm 0 5 0 0 0 0 0 0]));
      reflexivity.
  - apply (notify_emu_no_jump Example.table (insn.mk 0x40 4 1 []));
      [reflexivity | vm_compute; discriminate].
Defined.

(** C10: the target of the jump reference of a jump-class instruction is
    the [addr] field of operand slot 0, whatever operand slots the feature
    declares used: it is the first reference added, and any reference after
    it is a flow reference. *)
Theorem notify_emu_jump_target (table : list cls.t) (i : insn.t) :
  Z.land (get_canon_feature table i) Ida.CF_JUMP <> 0 ->
  exists rest,
    fst (notify_emu table i)
    = mk_cref (insn.ea i) (op.addr (nth 0 (insn.ops i) op.void)) 0 Ida.fl_JN
      :: rest
    /\ Forall (fun x => cref_type x = Ida.fl_F) rest.
Proof.
  intros Hj. apply nonzero_true in Hj.
  unfold notify_emu. rewrite Hj.
  destruct (Py.str_in (get_canon_mnem table i) ["jmp"; "vm_jmp"]).
  - exists []. split; [reflexivity | constructor].
  - eexists. split; [reflexivity |]. repeat constructor.
Qed.

Lemma notify_emu_jump_target_witness :
  exists rest,
    fst (notify_emu Example.table
           (insn.mk 0x10 5 1 [op.mk Ida.o_void 0 0 0x77 0 0 0 0 0]))
    = mk_cref 0x10 0x77 0 Ida.fl_JN :: rest
    /\ Forall (fun x => cref_type x = Ida.fl_F) rest.
Proof.
  apply (notify_emu_jump_target Example.table
           (insn.mk 0x10 5 1 [op.mk Ida.o_void 0 0 0x77 0 0 0 0 0])).
  vm_compute. discriminate.
Defined.

(** ** The operand renderer *)

Section RendererFacts.

Variable reg_names : list string.
Variable NONE_REG : Z.
Variable name_expr : op.t -> Z -> Z -> option string.

Lemma out_reg_name_ok (r : Z) (nm : string) :
  Py.getitem reg_names r = Py.Ok nm ->
  out_reg_name reg_names r = ([out_register nm], Py.Ok tt).
Proof. intros H. unfold out_reg_name, Log.lift. now rewrite H. Qed.

Lemma out_opt_reg_none (r : Z) :
  r = NONE_REG -> out_opt_reg reg_names NONE_REG r = ([], Py.Ok tt).
Proof. intros ->. unfold out_opt_reg. now rewrite Z.eqb_refl. Qed.

Lemma out_opt_reg_some (r : Z) (nm : string) :
  r <> NONE_REG ->
  Py.getitem reg_names r = Py.Ok nm ->
  out_opt_reg reg_names NONE_REG r
  = ([out_register nm; out_printf " + "], Py.Ok tt).
Proof.
  intros Hr H. unfold out_opt_reg.
  destruct (Z.eqb_spec r NONE_REG); [contradiction |].
  simpl. now rewrite (out_reg_name_ok r nm H).
Qed.

Lemma out_opt_reg_slot (r : Z) (nm : string) :
  (r <> NONE_REG -> Py.getitem reg_names r = Py.Ok nm) ->
  out_opt_reg reg_names NONE_REG r = (slot_calls NONE_REG r nm, Py.Ok tt).
Proof.
  intros H. unfold slot_calls. destruct (Z.eqb_spec r NONE_REG) as [E | N].
  - now apply out_opt_reg_none.
  - apply out_opt_reg_some; auto.
Qed.

End RendererFacts.

(** C6: a displacement operand ([o_displ]) is rendered as an opening
    bracket, the base register, [" + "], the index register and [" + "]
    only when the index slot is not [NONE_REG], the offset in hexadecimal
    and a closing bracket.  With the sentinel in the index slot the text is
    [[base + offset]], with no index term and no second [" + "]. *)
Theorem render_displacement (reg_names : list string) (NONE_REG : Z)
    (name_expr : op.t -> Z -> Z -> option string) (o : op.t)
    (base index : string) :
  op.type o = Ida.o_displ ->
  Py.getitem reg_names (op.reg o) = Py.Ok base ->
  (op.value o <> NONE_REG -> Py.getitem reg_names (op.value o) = Py.Ok index) ->
  notify_out_operand reg_names NONE_REG name_expr o
  = (Displacement_spec NONE_REG o base index, Py.Ok true)
  /\ (op.value o = NONE_REG ->
      fst (notify_out_operand reg_names NONE_REG name_expr o)
      = [out_printf "["; out_register base; out_printf " + ";
         out_long (op.addr o) 16; out_printf "]"]
      /\ forall mnem_text value_text,
          text_of mnem_text value_text
            (fst (notify_out_operand reg_names NONE_REG name_expr o))
          = String.append "["
              (String.append base
                 (String.append " + " (String.append (hex (op.addr o)) "]")))).
Proof.
  intros Ht Hb Hi.
  assert (E : notify_out_operand reg_names NONE_REG name_expr o
              = (Displacement_spec NONE_REG o base index, Py.Ok true)).
  { unfold notify_out_operand. rewrite Ht.
    rewrite (out_reg_name_ok reg_names _ _ Hb).
    rewrite (out_opt_reg_slot reg_names NONE_REG _ index Hi).
    simpl. now rewrite app_nil_r. }
  split; [exact E |].
  intros Hv. rewrite E. unfold Displacement_spec, slot_calls.
  rewrite Hv, Z.eqb_refl. split; [reflexivity |].
  intros mnem_text value_text. reflexivity.
Qed.

Lemma render_displacement_witness :
  notify_out_operand Example.reg_names Example.NONE_REG Example.name_expr
    (op.mk Ida.o_displ 1 3 0x20 0 0 0 0 0)
  = ([out_printf "["; out_register "R1"; out_printf " + ";
      out_register "R3"; out_printf " + "; out_long 0x20 16; out_printf "]"],
     Py.Ok true)
  /\ text_of "" (fun _ _ => "")
       (fst (notify_out_operand Example.reg_names Example.NONE_REG
               Example.name_expr
               (op.mk Ida.o_displ 1 Example.NONE_REG 0x10 0 0 0 0 0)))
     = "[R1 + 10]".
Proof.
  split.
  - apply (render_displacement Example.reg_names Example.NONE_REG
             Example.name_expr (op.mk Ida.o_displ 1 3 0x20 0 0 0 0 0)
             "R1" "R3"); reflexivity.
  - apply (render_displacement Example.reg_names Example.NONE_REG
             Example.name_expr
             (op.mk Ida.o_displ 1 Example.NONE_REG 0x10 0 0 0 0 0)
             "R1" ""); try reflexivity.
    intros H. exfalso. apply H. reflexivity.
Defined.

(** C5: a multi-register operand ([o_idpspec0]) is rendered as the size
    prefix of its width ([byte ptr], [word ptr], [dword ptr] or none), an
    opening bracket, register 1 and [" + "], each of registers 2 to 4 with
    its [" + "] only when that slot is not [NONE_REG], in slot order, the
    offset in hexadecimal and a closing bracket.  With only register 1
    present and the byte width the text is [byte ptr [reg1 + offset]]. *)
Theorem render_multi_base_sum (reg_names : list string) (NONE_REG : Z)
    (name_expr : op.t -> Z -> Z -> option string) (o : op.t)
    (n1 n2 n3 n4 : string) :
  op.type o = Ida.o_idpspec0 ->
  Py.getitem reg_names (op.specflag1 o) = Py.Ok n1 ->
  (op.specflag2 o <> NONE_REG -> Py.getitem reg_names (op.specflag2 o) = Py.Ok n2) ->
  (op.specflag3 o <> NONE_REG -> Py.getitem reg_names (op.specflag3 o) = Py.Ok n3) ->
  (op.specflag4 o <> NONE_REG -> Py.getitem reg_names (op.specflag4 o) = Py.Ok n4) ->
  notify_out_operand reg_names NONE_REG name_expr o
  = (MultiBaseSum_spec NONE_REG o n1 n2 n3 n4, Py.Ok true)
  /\ (op.dtyp o = Ida.dt_byte ->
      op.specflag2 o = NONE_REG ->
      op.specflag3 o = NONE_REG ->
      op.specflag4 o = NONE_REG ->
      fst (notify_out_operand reg_names NONE_REG name_expr o)
      = [out_printf "byte ptr ["; out_register n1; out_printf " + ";
         out_long (op.value o) 16; out_printf "]"]
      /\ forall mnem_text value_text,
          text_of mnem_text value_text
            (fst (notify_out_operand reg_names NONE_REG name_expr o))
          = String.append "byte ptr ["
              (String.append n1
                 (String.append " + " (String.append (hex (op.value o)) "]")))).
Proof.
  intros Ht H1 H2 H3 H4.
  assert (E : notify_out_operand reg_names NONE_REG name_expr o
              = (MultiBaseSum_spec NONE_REG o n1 n2 n3 n4, Py.Ok true)).
  { unfold notify_out_operand. rewrite Ht.
    rewrite (out_reg_name_ok reg_names _ _ H1).
    rewrite (out_opt_reg_slot reg_names NONE_REG _ n2 H2).
    rewrite (out_opt_reg_slot reg_names NONE_REG _ n3 H3).
    rewrite (out_opt_reg_slot reg_names NONE_REG _ n4 H4).
    unfold MultiBaseSum_spec, size_prefix.
    destruct (op.dtyp o =? Ida.dt_byte);
      [| destruct (op.dtyp o =? Ida.dt_word);
         [| destruct (op.dtyp o =? Ida.dt_dword)]];
      simpl; rewrite app_nil_r, <- ?app_assoc; reflexivity. }
  split; [exact E |].
  intros Hd E2 E3 E4. rewrite E.
  unfold MultiBaseSum_spec, size_prefix, slot_calls.
  rewrite Hd, E2, E3, E4, !Z.eqb_refl. split; [reflexivity |].
  intros mnem_text value_text. reflexivity.
Qed.

Lemma render_multi_base_sum_witness :
  notify_out_operand Example.reg_names Example.NONE_REG Example.name_expr
    (op.mk Ida.o_idpspec0 0 0x8 0 Ida.dt_dword 0 Example.NONE_REG 2 3)
  = ([out_printf "dword ptr ["; out_register "R0"; out_printf " + ";
      out_register "R2"; out_printf " + "; out_register "R3";
      out_printf " + "; out_long 0x8 16; out_printf "]"],
     Py.Ok true)
  /\ text_of "" (fun _ _ => "")
       (fst (notify_out_operand Example.reg_names Example.NONE_REG
               Example.name_expr
               (op.mk Ida.o_idpspec0 0 0x1F 0 Ida.dt_byte 1 Example.NONE_REG
                  Example.NONE_REG Example.NONE_REG)))
     = "byte ptr [R1 + 1F]".
Proof.
  split.
  - apply (render_multi_base_sum Example.reg_names Example.NONE_REG
             Example.name_expr
             (op.mk Ida.o_idpspec0 0 0x8 0 Ida.dt_dword 0 Example.NONE_REG 2 3)
             "R0" "" "R2" "R3"); try reflexivity.
    intros H. exfalso. apply H. reflexivity.
  - apply (render_multi_base_sum Example.reg_names Example.NONE_REG
             Example.name_expr
             (op.mk Ida.o_idpspec0 0 0x1F 0 Ida.dt_byte 1 Example.NONE_REG
                Example.NONE_REG Example.NONE_REG)
             "R1" "" "" ""); try reflexivity;
      intros H; exfalso; apply H; reflexivity.
Defined.

(** C8: for a direct-address operand ([o_near] or [o_mem]) the renderer
    asks the host for the name expression of the target.  When there is
    one, that expression is all it prints; when there is none, it prints
    the target in hexadecimal between an error colour tag and its closing
    tag.  Either way the callback answers [True] and raises nothing, and
    the operands after it on the instruction line are still rendered. *)
Theorem render_direct_address (reg_names : list string) (NONE_REG : Z)
    (name_expr : op.t -> Z -> Z -> option string) (o : op.t) :
  op.type o = Ida.o_near \/ op.type o = Ida.o_mem ->
  (forall s, name_expr o (op.addr o) Ida.BADADDR = Some s ->
     notify_out_operand reg_names NONE_REG name_expr o
     = ([out_name o (op.addr o) Ida.BADADDR s], Py.Ok true))
  /\ (name_expr o (op.addr o) Ida.BADADDR = None ->
      notify_out_operand reg_names NONE_REG name_expr o
      = ([out_tagon Ida.COLOR_ERROR; out_long (op.addr o) 16;
          out_tagoff Ida.COLOR_ERROR], Py.Ok true)
      /\ forall table i o2 w2 b2,
          insn.ops i = [o; o2] ->
          Z.land (get_canon_feature table i) Ida.CF_USE1 <> 0 ->
          Z.land (get_canon_feature table i) Ida.CF_USE2 <> 0 ->
          notify_out_operand reg_names NONE_REG name_expr o2 = (w2, Py.Ok b2) ->
          notify_out_insn table reg_names NONE_REG name_expr i
          = ([out_mnem; out_tagon Ida.COLOR_ERROR; out_long (op.addr o) 16;
              out_tagoff Ida.COLOR_ERROR; out_printf ", "]
             ++ w2 ++ [flush_outbuf], Py.Ok tt)).
Proof.
  intros Ht.
  assert (Hsel : notify_out_operand reg_names NONE_REG name_expr o
                 = ((ok <- out_name_expr name_expr o (op.addr o) Ida.BADADDR ;;
                     Log.when (negb ok)
                       (emit (out_tagon Ida.COLOR_ERROR) ;;
                        emit (out_long (op.addr o) 16) ;;
                        emit (out_tagoff Ida.COLOR_ERROR))) ;;
                    Log.ret true)%log).
  { unfold notify_out_operand. destruct Ht as [-> | ->]; reflexivity. }
  split.
  - intros s Hs. rewrite Hsel. unfold out_name_expr. now rewrite Hs.
  - intros Hn.
    assert (E : notify_out_operand reg_names NONE_REG name_expr o
                = ([out_tagon Ida.COLOR_ERROR; out_long (op.addr o) 16;
                    out_tagoff Ida.COLOR_ERROR], Py.Ok true)).
    { rewrite Hsel. unfold out_name_expr. now rewrite Hn. }
    split; [exact E |].
    intros table i o2 w2 b2 Hops H1 H2 Ho2.
    apply nonzero_true in H1. apply nonzero_true in H2.
    unfold notify_out_insn, out_one_operand, insn.getitem.
    rewrite H1, H2, Hops. cbn [nth]. rewrite E, Ho2.
    simpl. now rewrite app_nil_r.
Qed.

Lemma render_direct_address_witness :
  notify_out_operand Example.reg_names Example.NONE_REG Example.name_expr
    (op.mk Ida.o_near 0 0 0x200 0 0 0 0 0)
  = ([out_name (op.mk Ida.o_near 0 0 0x200 0 0 0 0 0) 0x200 Ida.BADADDR
        "loc_200"], Py.Ok true)
  /\ notify_out_insn Example.table Example.reg_names Example.NONE_REG
       Example.name_expr
       (insn.mk 0x100 6 3 [op.mk Ida.o_mem 0 0 0x300 0 0 0 0 0;
                           op.mk Ida.o_reg 2 0 0 0 0 0 0 0])
     = ([out_mnem; out_tagon Ida.COLOR_ERROR; out_long 0x300 16;
         out_tagoff Ida.COLOR_ERROR; out_printf ", "; out_register "R2";
         flush_outbuf], Py.Ok tt).
Proof.
  split.
  - apply (render_direct_address Example.reg_names Example.NONE_REG
             Example.name_expr (op.mk Ida.o_near 0 0 0x200 0 0 0 0 0));
      [now left | reflexivity].
  - destruct (render_direct_address Example.reg_names Example.NONE_REG
                Example.name_expr (op.mk Ida.o_mem 0 0 0x300 0 0 0 0 0)
                (or_intror eq_refl)) as [_ Hnone].
    destruct (Hnone eq_refl) as [_ Hline].
    apply (Hline Example.table
             (insn.mk 0x100 6 3 [op.mk Ida.o_mem 0 0 0x300 0 0 0 0 0;
                                 op.mk Ida.o_reg 2 0 0 0 0 0 0 0])
             (op.mk Ida.o_reg 2 0 0 0 0 0 0 0) [out_register "R2"] true).
    + reflexivity.
    + vm_compute. discriminate.
    + vm_compute. discriminate.
    + reflexivity.
Defined.

(** ** The instruction renderer *)

(** C7, as the code has it: [notify_out_insn] asks the host for the
    mnemonic, then for operand 1 when the feature has [CF_USE1], then for
    [", "] and operand 2 when the feature has [CF_USE2], then flushes the
    line.  It prints nothing of its own between the mnemonic and operand 1,
    it tests each of the two flags on its own, and it never looks at which
    operand slots are filled. *)
Theorem notify_out_insn_by_feature (table : list cls.t)
    (reg_names : list string) (NONE_REG : Z)
    (name_expr : op.t -> Z -> Z -> option string) (i : insn.t)
    (w0 w1 : list out_call) (b0 b1 : bool) :
  out_one_operand reg_names NONE_REG name_expr i 0 = (w0, Py.Ok b0) ->
  out_one_operand reg_names NONE_REG name_expr i 1 = (w1, Py.Ok b1) ->
  notify_out_insn table reg_names NONE_REG name_expr i
  = ([out_mnem]
     ++ (if nonzero (Z.land (get_canon_feature table i) Ida.CF_USE1)
         then w0 else [])
     ++ (if nonzero (Z.land (get_canon_feature table i) Ida.CF_USE2)
         then out_printf ", " :: w1 else [])
     ++ [flush_outbuf], Py.Ok tt).
Proof.
  intros H0 H1. unfold notify_out_insn. rewrite H0, H1.
  destruct (nonzero (Z.land (get_canon_feature table i) Ida.CF_USE1));
    destruct (nonzero (Z.land (get_canon_feature table i) Ida.CF_USE2));
    simpl; rewrite ?app_nil_r, <- ?app_assoc; reflexivity.
Qed.

Lemma notify_out_insn_by_feature_witness :
  notify_out_insn Example.table Example.reg_names Example.NONE_REG
    Example.name_expr
    (insn.mk 0 1 2 [op.mk Ida.o_reg 3 0 0 0 0 0 0 0;
                    op.mk Ida.o_reg 2 0 0 0 0 0 0 0])
  = ([out_mnem; out_register "R3"; flush_outbuf], Py.Ok tt).
Proof.
  apply (notify_out_insn_by_feature Example.table Example.reg_names
           Example.NONE_REG Example.name_expr
           (insn.mk 0 1 2 [op.mk Ida.o_reg 3 0 0 0 0 0 0 0;
                           op.mk Ida.o_reg 2 0 0 0 0 0 0 0])
           [out_register "R3"] [out_register "R2"] true true);
    reflexivity.
Defined.

(** C7, as the specification words it, fails: for [ldi], whose feature is
    [CF_USE1], the calls are the mnemonic, operand 1 and the flush; no
    single space is printed between the mnemonic and the operand. *)
Lemma single_space_not_printed :
  let i := insn.mk 0 1 2 [op.mk Ida.o_imm 0 5 0 Ida.dt_byte 0 0 0 0] in
  fst (notify_out_insn Example.table Example.reg_names Example.NONE_REG
         Example.name_expr i)
  = [out_mnem; out_value (op.mk Ida.o_imm 0 5 0 Ida.dt_byte 0 0 0 0)
                 Ida.OOFW_IMM; flush_outbuf]
  /\ fst (notify_out_insn Example.table Example.reg_names Example.NONE_REG
            Example.name_expr i)
     <> renderInstruction_spec (get_canon_feature Example.table i)
          (fst (out_one_operand Example.reg_names Example.NONE_REG
                  Example.name_expr i 0))
          (fst (out_one_operand Example.reg_names Example.NONE_REG
                  Example.name_expr i 1)).
Proof.
  split; [reflexivity |]. vm_compute. discriminate.
Qed.

(** On the host's default mnemonic field the line of [ldi 5] reads with the
    padding of that field, which the renderer leaves to [out_mnem]. *)
Example ldi_line_text :
  text_of (out_mnem_default "ldi") (fun o _ => hex (op.value o))
    (fst (notify_out_insn Example.table Example.reg_names Example.NONE_REG
            Example.name_expr
            (insn.mk 0 1 2 [op.mk Ida.o_imm 0 5 0 Ida.dt_byte 0 0 0 0])))
  = "ldi     5".
Proof. reflexivity. Qed.

(** The matcher and the two consumers of its record, run on the bytes
    [03 00 02]: [jz 0x200] at address 0 falls through and jumps. *)
Example jz_decoded_and_resolved :
  let r := notify_ana Example.table (Ida.get_byte [0x03; 0x00; 0x02])
             (Example.fresh 0) in
  snd r = Py.Ok (Py.Int 3)
  /\ insn.itype (fst r) = 3
  /\ notify_emu Example.table (fst r)
     = ([mk_cref 0 0x200 0 Ida.fl_JN; mk_cref 0 3 0 Ida.fl_F], Py.Ok true)
  /\ notify_out_insn Example.table Example.reg_names Example.NONE_REG
       Example.name_expr (fst r)
     = ([out_mnem;
         out_name (op.mk Ida.o_near 0 0 0x200 Ida.dt_word 0 0 0 0) 0x200
           Ida.BADADDR "loc_200";
         flush_outbuf], Py.Ok tt).
Proof. repeat split. Qed.

(** * Further properties of the code *)

(** ** The instruction index built by [_init_instructions] *)

Lemma dict_get_enumerate_from_outside {A} (l : list A) (n k : Z) :
  k < n \/ n + Z.of_nat (List.length l) <= k ->
  Py.dict_get (Py.enumerate_from n l) k = Py.Raise Py.KeyError.
Proof.
  revert n. induction l as [| x l IH]; intros n H; [reflexivity |].
  cbn [Py.enumerate_from Py.dict_get].
  cbn [List.length] in H.
  destruct (Z.eqb_spec n k) as [E | N]; [lia |].
  apply IH. lia.
Qed.

(** X1: [self.instructions[k]] is the class at position [k] of
    [instruction_class_list] for every [k] from 0 to the length of the list
    less one, and raises [KeyError] for every other [k]: the index holds the
    table as it is, under the keys 0, 1, 2, ... *)
Theorem instructions_lookup (table : list cls.t) (k : Z) :
  (0 <= k < Z.of_nat (List.length table) ->
   exists c, nth_error table (Z.to_nat k) = Some c
             /\ Py.dict_get (_init_instructions table) k = Py.Ok c)
  /\ (k < 0 \/ Z.of_nat (List.length table) <= k ->
      Py.dict_get (_init_instructions table) k = Py.Raise Py.KeyError).
Proof.
  split.
  - intros Hk.
    destruct (nth_error table (Z.to_nat k)) as [c |] eqn:E.
    + exists c. split; [reflexivity |].
      destruct (nth_error_split table (Z.to_nat k) E) as (l1 & l2 & -> & Hlen).
      unfold _init_instructions.
      replace k with (Z.of_nat (List.length l1)) by lia.
      apply dict_get_enumerate.
    + apply nth_error_None in E. lia.
  - intros Hk. unfold _init_instructions, Py.enumerate.
    apply dict_get_enumerate_from_outside. lia.
Qed.

Lemma instructions_lookup_witness :
  (exists c, nth_error Example.table (Z.to_nat 3) = Some c
             /\ Py.dict_get (_init_instructions Example.table) 3 = Py.Ok c)
  /\ Py.dict_get (_init_instructions Example.table) 7 = Py.Raise Py.KeyError.
Proof.
  split.
  - apply (instructions_lookup Example.table 3). simpl. lia.
  - apply (instructions_lookup Example.table 7). right. simpl. lia.
Defined.

(** ** The register index built by [_init_registers] *)

Lemma strdict_get_set_same (d : StrDict.t) (k : string) (v : Z) :
  StrDict.get (StrDict.set d k v) k = Py.Ok v.
Proof.
  induction d as [| [k' v'] d IH]; simpl.
  - now rewrite String.eqb_refl.
  - destruct (String.eqb k' k) eqn:E; simpl; rewrite E; [reflexivity | exact IH].
Qed.

Lemma strdict_get_set_other (d : StrDict.t) (k k0 : string) (v : Z) :
  k <> k0 -> StrDict.get (StrDict.set d k v) k0 = StrDict.get d k0.
Proof.
  intros N. induction d as [| [k' v'] d IH]; simpl.
  - destruct (String.eqb_spec k k0); [contradiction | reflexivity].
  - destruct (String.eqb_spec k' k) as [-> | N']; simpl.
    + destruct (String.eqb_spec k k0); [contradiction | reflexivity].
    + destruct (String.eqb_spec k' k0); [reflexivity | exact IH].
Qed.

(** One more name at the end of [reg_names] is one more assignment. *)
Lemma reg_ids_snoc (l : list string) (x : string) :
  reg_ids (l ++ [x]) = StrDict.set (reg_ids l) x (Z.of_nat (List.length l)).
Proof.
  unfold reg_ids, reg_ids_loop, Py.enumerate.
  rewrite enumerate_from_app, fold_left_app. reflexivity.
Qed.

Lemma reg_ids_sound (l : list string) (name : string) (i : Z) :
  StrDict.get (reg_ids l) name = Py.Ok i ->
  0 <= i /\ nth_error l (Z.to_nat i) = Some name.
Proof.
  revert i. induction l as [| x l IH] using rev_ind; intros i H.
  - discriminate H.
  - rewrite reg_ids_snoc in H.
    destruct (string_dec x name) as [-> | N].
    + rewrite strdict_get_set_same in H. injection H as <-.
      split; [lia |]. rewrite Nat2Z.id.
      rewrite nth_error_app2 by lia. now rewrite Nat.sub_diag.
    + rewrite strdict_get_set_other in H by assumption.
      destruct (IH i H) as [Hi Hn]. split; [exact Hi |].
      rewrite nth_error_app1; [exact Hn |].
      apply nth_error_Some. congruence.
Qed.

Lemma reg_ids_last (l : list string) (name : string) (i : Z) :
  StrDict.get (reg_ids l) name = Py.Ok i ->
  forall j, (Z.to_nat i < j)%nat -> nth_error l j <> Some name.
Proof.
  revert i. induction l as [| x l IH] using rev_ind; intros i H j Hj.
  - destruct j; discriminate.
  - rewrite reg_ids_snoc in H.
    destruct (string_dec x name) as [-> | N].
    + rewrite strdict_get_set_same in H. injection H as <-.
      rewrite Nat2Z.id in Hj.
      intros E. assert (j < List.length (l ++ [name]))%nat
        by (apply nth_error_Some; congruence).
      rewrite length_app in H. simpl in H. lia.
    + rewrite strdict_get_set_other in H by assumption.
      destruct (Nat.lt_ge_cases j (List.length l)) as [Hlt | Hge].
      * rewrite nth_error_app1 by assumption. now apply (IH i H).
      * rewrite nth_error_app2 by assumption.
        destruct (j - List.length l)%nat as [| m]; simpl.
        -- congruence.
        -- destruct m; discriminate.
Qed.

Lemma reg_ids_complete (l : list string) (name : string) :
  In name l -> exists i, StrDict.get (reg_ids l) name = Py.Ok i.
Proof.
  induction l as [| x l IH] using rev_ind; intros H; [destruct H |].
  rewrite reg_ids_snoc.
  destruct (string_dec x name) as [-> | N].
  - eexists. apply strdict_get_set_same.
  - rewrite strdict_get_set_other by assumption.
    apply IH. apply in_app_or in H. destruct H as [H | [H | []]];
      [exact H | contradiction].
Qed.

Lemma reg_ids_absent (l : list string) (name : string) :
  ~ In name l -> StrDict.get (reg_ids l) name = Py.Raise Py.KeyError.
Proof.
  induction l as [| x l IH] using rev_ind; intros H; [reflexivity |].
  rewrite reg_ids_snoc.
  assert (N : x <> name) by (intros ->; apply H, in_or_app; right; now left).
  rewrite strdict_get_set_other by assumption.
  apply IH. intros Hin. apply H, in_or_app. now left.
Qed.

Lemma getitem_nth {A} (l : list A) (i : Z) (x : A) :
  0 <= i -> nth_error l (Z.to_nat i) = Some x -> Py.getitem l i = Py.Ok x.
Proof.
  intros Hi Hn. unfold Py.getitem.
  assert (Z.to_nat i < List.length l)%nat by (apply nth_error_Some; congruence).
  destruct (Z.ltb_spec i 0) as [? | _]; [lia |].
  destruct (Z.leb_spec 0 i) as [_ | ?]; [| lia].
  destruct (Z.ltb_spec i (Z.of_nat (List.length l))) as [_ | ?]; [| lia].
  simpl. now rewrite Hn.
Qed.

Lemma getitem_outside {A} (l : list A) (i : Z) :
  i < - Z.of_nat (List.length l) \/ Z.of_nat (List.length l) <= i ->
  Py.getitem l i = Py.Raise Py.IndexError.
Proof.
  intros H. unfold Py.getitem.
  destruct (Z.ltb_spec i 0).
  - destruct (Z.leb_spec 0 (i + Z.of_nat (List.length l))); [lia | reflexivity].
  - destruct (Z.leb_spec 0 i); [| lia].
    destruct (Z.ltb_spec i (Z.of_nat (List.length l))); [lia | reflexivity].
Qed.

(** X2: [reg_ids[name]] is the position of the last occurrence of [name] in
    [reg_names] when the name occurs there, and raises [KeyError] when it
    does not: a later assignment of the loop overwrites an earlier one. *)
Theorem reg_ids_lookup (reg_names : list string) (name : string) :
  (In name reg_names
   /\ exists i,
       StrDict.get (reg_ids reg_names) name = Py.Ok i
       /\ 0 <= i
       /\ nth_error reg_names (Z.to_nat i) = Some name
       /\ forall j, (Z.to_nat i < j)%nat -> nth_error reg_names j <> Some name)
  \/ (~ In name reg_names
      /\ StrDict.get (reg_ids reg_names) name = Py.Raise Py.KeyError).
Proof.
  destruct (in_dec string_dec name reg_names) as [Hin | Hout].
  - left. split; [exact Hin |].
    destruct (reg_ids_complete reg_names name Hin) as [i Hi].
    exists i. split; [exact Hi |].
    destruct (reg_ids_sound reg_names name i Hi) as [H0 Hn].
    repeat split; try assumption.
    now apply reg_ids_last.
  - right. split; [exact Hout |]. now apply reg_ids_absent.
Qed.

(** X3: With no name twice in [reg_names], [reg_ids] is the inverse of the
    table: the name at position [n] is mapped back to [n], the number an
    operand carries for that register and [reg_names[n]] reads back. *)
Theorem reg_ids_round_trip (reg_names : list string) (n : nat)
    (name : string) :
  NoDup reg_names ->
  nth_error reg_names n = Some name ->
  StrDict.get (reg_ids reg_names) name = Py.Ok (Z.of_nat n)
  /\ Py.getitem reg_names (Z.of_nat n) = Py.Ok name.
Proof.
  intros Hnd Hn. split.
  - assert (Hin : In name reg_names) by (eapply nth_error_In; eassumption).
    destruct (reg_ids_complete reg_names name Hin) as [i Hi].
    destruct (reg_ids_sound reg_names name i Hi) as [H0 Hi'].
    rewrite Hi. f_equal.
    assert (E : Z.to_nat i = n).
    { apply (proj1 (NoDup_nth_error reg_names) Hnd).
      - apply nth_error_Some. congruence.
      - congruence. }
    lia.
  - apply getitem_nth; [lia |]. now rewrite Nat2Z.id.
Qed.

Lemma reg_ids_round_trip_witness :
  StrDict.get (reg_ids Example.reg_names) "CS" = Py.Ok 4
  /\ Py.getitem Example.reg_names 4 = Py.Ok "CS".
Proof.
  apply (reg_ids_round_trip Example.reg_names 4 "CS"); [| reflexivity].
  repeat constructor; simpl; intuition discriminate.
Defined.

(** ** Creating the processor *)

(** X4: [PROCESSOR_ENTRY] succeeds exactly when both ["CS"] and ["DS"] are
    register names.  The object then holds the instruction index, the code
    and first segment registers are one number that [reg_names] reads back
    as ["CS"], the data and last segment registers one number that reads
    back as ["DS"].  With either name missing the constructor raises
    [KeyError]. *)
Theorem PROCESSOR_ENTRY_needs_CS_DS (table : list cls.t)
    (reg_names : list string) :
  (In "CS" reg_names -> In "DS" reg_names ->
   exists p,
     PROCESSOR_ENTRY table reg_names = Py.Ok p
     /\ processor.instructions p = Py.enumerate table
     /\ processor.reg_ids p = reg_ids reg_names
     /\ processor.reg_first_sreg p = processor.reg_code_sreg p
     /\ processor.reg_last_sreg p = processor.reg_data_sreg p
     /\ Py.getitem reg_names (processor.reg_code_sreg p) = Py.Ok "CS"
     /\ Py.getitem reg_names (processor.reg_data_sreg p) = Py.Ok "DS")
  /\ (~ In "CS" reg_names \/ ~ In "DS" reg_names ->
      PROCESSOR_ENTRY table reg_names = Py.Raise Py.KeyError).
Proof.
  split.
  - intros Hcs Hds.
    destruct (reg_ids_complete reg_names "CS" Hcs) as [cs Ecs].
    destruct (reg_ids_complete reg_names "DS" Hds) as [ds Eds].
    destruct (reg_ids_sound reg_names "CS" cs Ecs) as [Hcs0 Hcsn].
    destruct (reg_ids_sound reg_names "DS" ds Eds) as [Hds0 Hdsn].
    eexists. unfold PROCESSOR_ENTRY, _init_registers. rewrite Ecs, Eds.
    split; [reflexivity |]. cbn [processor.instructions processor.reg_ids
      processor.reg_first_sreg processor.reg_code_sreg
      processor.reg_last_sreg processor.reg_data_sreg].
    repeat split; now apply getitem_nth.
  - intros H. unfold PROCESSOR_ENTRY, _init_registers.
    destruct (in_dec string_dec "CS" reg_names) as [Hcs | Hcs].
    + destruct H as [H | H]; [contradiction |].
      destruct (reg_ids_complete reg_names "CS" Hcs) as [cs ->].
      now rewrite (reg_ids_absent reg_names "DS" H).
    + now rewrite (reg_ids_absent reg_names "CS" Hcs).
Qed.

Lemma PROCESSOR_ENTRY_needs_CS_DS_witness :
  (exists p,
     PROCESSOR_ENTRY Example.table Example.reg_names = Py.Ok p
     /\ processor.instructions p = Py.enumerate Example.table
     /\ processor.reg_ids p = reg_ids Example.reg_names
     /\ processor.reg_first_sreg p = processor.reg_code_sreg p
     /\ processor.reg_last_sreg p = processor.reg_data_sreg p
     /\ Py.getitem Example.reg_names (processor.reg_code_sreg p) = Py.Ok "CS"
     /\ Py.getitem Example.reg_names (processor.reg_data_sreg p) = Py.Ok "DS")
  /\ PROCESSOR_ENTRY Example.table ["R0"; "R1"; "CS"] = Py.Raise Py.KeyError.
Proof.
  split.
  - apply (PROCESSOR_ENTRY_needs_CS_DS Example.table Example.reg_names);
      simpl; tauto.
  - apply (PROCESSOR_ENTRY_needs_CS_DS Example.table ["R0"; "R1"; "CS"]).
    right. simpl. intuition discriminate.
Defined.

(** ** From the matcher to the resolver *)

Lemma canon_entry_at (l1 : list cls.t) (c : cls.t) (l2 : list cls.t)
    (i : insn.t) :
  insn.itype i = Z.of_nat (List.length l1) ->
  canon_entry (l1 ++ c :: l2) i = Some (cls.name c, cls.feature c).
Proof.
  intros Hi. unfold canon_entry, instruc_end, instruc_start, instruc.
  rewrite Hi, length_map, length_app. cbn [List.length].
  destruct (Z.leb_spec 0 (Z.of_nat (List.length l1))) as [_ | ?]; [| lia].
  destruct (Z.ltb_spec (Z.of_nat (List.length l1))
              (Z.of_nat (List.length l1 + S (List.length l2)))) as [_ | ?];
    [| lia].
  cbn [andb]. rewrite Z.sub_0_r, Nat2Z.id, map_app.
  rewrite nth_error_app2 by (rewrite length_map; lia).
  now rewrite length_map, Nat.sub_diag.
Qed.

(** X5: When the decode of the matched class leaves [itype] as it finds it,
    the record [notify_ana] returns is canonical: the feature and the
    mnemonic the host looks up for it in [instruc] are those of the matched
    class. *)
Theorem notify_ana_record_is_canonical (table l1 l2 : list cls.t) (c : cls.t)
    (get_byte : Z -> Z) (i : insn.t) :
  table = l1 ++ c :: l2 ->
  Forall (fun d => cls.opcode d <> get_byte (insn.ea i)) l1 ->
  cls.opcode c = get_byte (insn.ea i) ->
  (forall j, insn.itype (cls.emulate c get_byte j) = insn.itype j) ->
  get_canon_feature table (fst (notify_ana table get_byte i)) = cls.feature c
  /\ get_canon_mnem table (fst (notify_ana table get_byte i))
     = Some (cls.name c).
Proof.
  intros Ht Hl1 Hc Hkeep.
  rewrite (notify_ana_match table get_byte l1 c l2 i Ht Hl1 Hc).
  cbn [fst]. unfold get_canon_feature, get_canon_mnem.
  assert (Hit : insn.itype (decoded get_byte (Z.of_nat (List.length l1)) c i)
                = Z.of_nat (List.length l1)).
  { unfold decoded. now rewrite Hkeep. }
  subst table. now rewrite (canon_entry_at l1 c l2 _ Hit).
Qed.

Lemma notify_ana_record_is_canonical_witness :
  get_canon_feature Example.table
    (fst (notify_ana Example.table (Ida.get_byte [0x03; 0x00; 0x02])
            (Example.fresh 0)))
  = cls.feature Example.jz
  /\ get_canon_mnem Example.table
       (fst (notify_ana Example.table (Ida.get_byte [0x03; 0x00; 0x02])
               (Example.fresh 0)))
     = Some "jz".
Proof.
  apply (notify_ana_record_is_canonical Example.table
           [Example.nop; Example.ldi; Example.jmp]
           [Example.hlt; Example.jr; Example.mov] Example.jz
           (Ida.get_byte [0x03; 0x00; 0x02]) (Example.fresh 0)).
  - reflexivity.
  - repeat constructor; vm_compute; discriminate.
  - reflexivity.
  - intros j. reflexivity.
Defined.

(** X6: An instruction that is neither jump-class nor stop-class, decoded by a
    class whose decode keeps [ea], [itype] and [size], falls through to the
    address right after it: the one reference [notify_emu] adds for the
    record [notify_ana] returns goes from [ea] to [ea] plus the size the
    class declares. *)
Theorem decoded_plain_falls_through (table l1 l2 : list cls.t) (c : cls.t)
    (get_byte : Z -> Z) (i : insn.t) :
  table = l1 ++ c :: l2 ->
  Forall (fun d => cls.opcode d <> get_byte (insn.ea i)) l1 ->
  cls.opcode c = get_byte (insn.ea i) ->
  (forall j, insn.ea (cls.emulate c get_byte j) = insn.ea j
             /\ insn.itype (cls.emulate c get_byte j) = insn.itype j
             /\ insn.size (cls.emulate c get_byte j) = insn.size j) ->
  Z.land (cls.feature c) Ida.CF_JUMP = 0 ->
  Z.land (cls.feature c) Ida.CF_STOP = 0 ->
  notify_emu table (fst (notify_ana table get_byte i))
  = ([mk_cref (insn.ea i) (insn.ea i + cls.size c) 0 Ida.fl_F], Py.Ok true).
Proof.
  intros Ht Hl1 Hc Hkeep Hj Hs.
  rewrite (notify_ana_match table get_byte l1 c l2 i Ht Hl1 Hc).
  cbn [fst]. unfold decoded.
  destruct (Hkeep (insn.set_size (cls.size c)
                     (insn.set_itype (Z.of_nat (List.length l1)) i)))
    as (Hea & Hit & Hsz).
  cbn [insn.set_size insn.set_itype insn.ea insn.itype insn.size] in Hea, Hit, Hsz.
  unfold notify_emu, get_canon_feature. subst table.
  rewrite (canon_entry_at l1 c l2 _ Hit).
  apply nonzero_false in Hj. apply nonzero_false in Hs.
  rewrite Hj, Hs. cbn [negb andb]. unfold add_cref.
  now rewrite Hea, Hsz.
Qed.

Lemma decoded_plain_falls_through_witness :
  notify_emu Example.table
    (fst (notify_ana Example.table (Ida.get_byte [0x00; 0x01; 0x2A])
            (Example.fresh 1)))
  = ([mk_cref 1 3 0 Ida.fl_F], Py.Ok true).
Proof.
  apply (decoded_plain_falls_through Example.table [Example.nop]
           [Example.jmp; Example.jz; Example.hlt; Example.jr; Example.mov]
           Example.ldi (Ida.get_byte [0x00; 0x01; 0x2A]) (Example.fresh 1)).
  - reflexivity.
  - repeat constructor; vm_compute; discriminate.
  - reflexivity.
  - intros j. repeat split.
  - reflexivity.
  - reflexivity.
Defined.

(** X7: A matched class whose decode leaves [size] at 0 makes [notify_ana]
    answer [0], which the host cannot tell from the [False] of an
    unrecognized opcode; the record has been rewritten all the same. *)
Theorem notify_ana_zero_size_reads_as_failure (table l1 l2 : list cls.t)
    (c : cls.t) (get_byte : Z -> Z) (i : insn.t) :
  table = l1 ++ c :: l2 ->
  Forall (fun d => cls.opcode d <> get_byte (insn.ea i)) l1 ->
  cls.opcode c = get_byte (insn.ea i) ->
  insn.size (decoded get_byte (Z.of_nat (List.length l1)) c i) = 0 ->
  snd (notify_ana table get_byte i) = Py.Ok (Py.Int 0)
  /\ not_an_instruction (snd (notify_ana table get_byte i)) = true
  /\ fst (notify_ana table get_byte i)
     = decoded get_byte (Z.of_nat (List.length l1)) c i.
Proof.
  intros Ht Hl1 Hc Hz.
  rewrite (notify_ana_match table get_byte l1 c l2 i Ht Hl1 Hc).
  cbn [fst snd]. rewrite Hz. repeat split.
Qed.

Lemma notify_ana_zero_size_reads_as_failure_witness :
  snd (notify_ana [Example.nop; cls.mk 0x07 "brk" Ida.CF_STOP 0
                                  Example.emulate_none]
         (Ida.get_byte [0x07]) (insn.mk 0 5 9 []))
  = Py.Ok (Py.Int 0)
  /\ not_an_instruction
       (snd (notify_ana [Example.nop; cls.mk 0x07 "brk" Ida.CF_STOP 0
                                        Example.emulate_none]
               (Ida.get_byte [0x07]) (insn.mk 0 5 9 []))) = true
  /\ fst (notify_ana [Example.nop; cls.mk 0x07 "brk" Ida.CF_STOP 0
                                     Example.emulate_none]
            (Ida.get_byte [0x07]) (insn.mk 0 5 9 []))
     = insn.mk 0 1 0 [].
Proof.
  apply (notify_ana_zero_size_reads_as_failure
           [Example.nop; cls.mk 0x07 "brk" Ida.CF_STOP 0 Example.emulate_none]
           [Example.nop] []
           (cls.mk 0x07 "brk" Ida.CF_STOP 0 Example.emulate_none)
           (Ida.get_byte [0x07]) (insn.mk 0 5 9 [])).
  - reflexivity.
  - repeat constructor; vm_compute; discriminate.
  - reflexivity.
  - reflexivity.
Defined.

(** ** What [notify_emu] never does *)

(** X10: Whatever the record, [notify_emu] answers [True], raises nothing and
    adds at most two references; each starts at [ea] with operand offset 0,
    a flow reference always goes to [ea + size], and at most one of them is
    a jump reference. *)
Theorem notify_emu_refs (table : list cls.t) (i : insn.t) :
  snd (notify_emu table i) = Py.Ok true
  /\ (List.length (fst (notify_emu table i)) <= 2)%nat
  /\ Forall (fun x => cref_from x = insn.ea i
                      /\ cref_opoff x = 0
                      /\ (cref_type x = Ida.fl_F ->
                          cref_to x = insn.ea i + insn.size i))
       (fst (notify_emu table i))
  /\ (List.length (filter (fun x => match cref_type x with
                                    | Ida.fl_JN => true
                                    | Ida.fl_F => false
                                    end) (fst (notify_emu table i))) <= 1)%nat.
Proof.
  unfold notify_emu, add_cref.
  destruct (nonzero (Z.land (get_canon_feature table i) Ida.CF_JUMP));
    [destruct (Py.str_in (get_canon_mnem table i) ["jmp"; "vm_jmp"])
    | destruct (nonzero (Z.land (get_canon_feature table i) Ida.CF_STOP))];
    cbn; repeat split; try lia; repeat constructor; intros H; discriminate H.
Qed.

(** ** Edges of the operand renderer *)

(** X11: A register operand ([o_reg]) prints the name [reg_names] holds for
    [op.reg] and nothing else; when [op.reg] is outside the table the
    subscript raises before anything is printed. *)
Theorem render_register (reg_names : list string) (NONE_REG : Z)
    (name_expr : op.t -> Z -> Z -> option string) (o : op.t) :
  op.type o = Ida.o_reg ->
  (forall nm, Py.getitem reg_names (op.reg o) = Py.Ok nm ->
     notify_out_operand reg_names NONE_REG name_expr o
     = ([out_register nm], Py.Ok true))
  /\ (op.reg o < - Z.of_nat (List.length reg_names)
      \/ Z.of_nat (List.length reg_names) <= op.reg o ->
      notify_out_operand reg_names NONE_REG name_expr o
      = ([], Py.Raise Py.IndexError)).
Proof.
  intros Ht. unfold notify_out_operand, out_reg_name, Log.lift. rewrite Ht.
  split.
  - intros nm H. now rewrite H.
  - intros H. now rewrite (getitem_outside reg_names (op.reg o) H).
Qed.

Lemma render_register_witness :
  notify_out_operand Example.reg_names Example.NONE_REG Example.name_expr
    (op.mk Ida.o_reg 5 0 0 0 0 0 0 0)
  = ([out_register "DS"], Py.Ok true)
  /\ notify_out_operand Example.reg_names Example.NONE_REG Example.name_expr
       (op.mk Ida.o_reg 6 0 0 0 0 0 0 0)
     = ([], Py.Raise Py.IndexError).
Proof.
  split.
  - apply (render_register Example.reg_names Example.NONE_REG
             Example.name_expr (op.mk Ida.o_reg 5 0 0 0 0 0 0 0));
      reflexivity.
  - apply (render_register Example.reg_names Example.NONE_REG
             Example.name_expr (op.mk Ida.o_reg 6 0 0 0 0 0 0 0));
      [reflexivity | right; simpl; lia].
Defined.

(** X12: The sentinel is honoured in the optional slots only.  A displacement
    whose base register is outside [reg_names] (the sentinel included, when
    it is no index of the table) raises [IndexError] with the opening
    bracket already printed; one whose index register is neither the
    sentinel nor inside the table raises after the base and its [" + "]. *)
Theorem render_displacement_bad_register (reg_names : list string)
    (NONE_REG : Z) (name_expr : op.t -> Z -> Z -> option string) (o : op.t) :
  op.type o = Ida.o_displ ->
  (Py.getitem reg_names (op.reg o) = Py.Raise Py.IndexError ->
   notify_out_operand reg_names NONE_REG name_expr o
   = ([out_printf "["], Py.Raise Py.IndexError))
  /\ (forall base,
        Py.getitem reg_names (op.reg o) = Py.Ok base ->
        op.value o <> NONE_REG ->
        Py.getitem reg_names (op.value o) = Py.Raise Py.IndexError ->
        notify_out_operand reg_names NONE_REG name_expr o
        = ([out_printf "["; out_register base; out_printf " + "],
           Py.Raise Py.IndexError)).
Proof.
  intros Ht. unfold notify_out_operand. rewrite Ht. split.
  - intros H. unfold out_reg_name, Log.lift. now rewrite H.
  - intros base Hb Hv Hi.
    rewrite (out_reg_name_ok reg_names _ _ Hb).
    unfold out_opt_reg, out_reg_name, Log.lift.
    destruct (Z.eqb_spec (op.value o) NONE_REG); [contradiction |].
    now rewrite Hi.
Qed.

Lemma render_displacement_bad_register_witness :
  notify_out_operand Example.reg_names Example.NONE_REG Example.name_expr
    (op.mk Ida.o_displ Example.NONE_REG Example.NONE_REG 0x10 0 0 0 0 0)
  = ([out_printf "["], Py.Raise Py.IndexError)
  /\ notify_out_operand Example.reg_names Example.NONE_REG Example.name_expr
       (op.mk Ida.o_displ 1 9 0x10 0 0 0 0 0)
     = ([out_printf "["; out_register "R1"; out_printf " + "],
        Py.Raise Py.IndexError).
Proof.
  split.
  - apply (render_displacement_bad_register Example.reg_names
             Example.NONE_REG Example.name_expr
             (op.mk Ida.o_displ Example.NONE_REG Example.NONE_REG 0x10 0 0 0
                0 0)); reflexivity.
  - apply (proj2 (render_displacement_bad_register Example.reg_names
                    Example.NONE_REG Example.name_expr
                    (op.mk Ida.o_displ 1 9 0x10 0 0 0 0 0) eq_refl) "R1");
      [reflexivity | vm_compute; discriminate | reflexivity].
Defined.

(** X13: Operand types the renderer has no branch for (a void slot, a phrase, a
    far address, ...) print nothing, and the callback still answers
    [True]. *)
Theorem render_unhandled_type (reg_names : list string) (NONE_REG : Z)
    (name_expr : op.t -> Z -> Z -> option string) (o : op.t) :
  op.type o <> Ida.o_imm ->
  op.type o <> Ida.o_displ ->
  op.type o <> Ida.o_reg ->
  op.type o <> Ida.o_near ->
  op.type o <> Ida.o_mem ->
  op.type o <> Ida.o_idpspec0 ->
  notify_out_operand reg_names NONE_REG name_expr o = ([], Py.Ok true).
Proof.
  intros H1 H2 H3 H4 H5 H6. unfold notify_out_operand.
  destruct (Z.eqb_spec (op.type o) Ida.o_imm); [contradiction |].
  destruct (Z.eqb_spec (op.type o) Ida.o_displ); [contradiction |].
  destruct (Z.eqb_spec (op.type o) Ida.o_reg); [contradiction |].
  destruct (Z.eqb_spec (op.type o) Ida.o_near); [contradiction |].
  destruct (Z.eqb_spec (op.type o) Ida.o_mem); [contradiction |].
  destruct (Z.eqb_spec (op.type o) Ida.o_idpspec0); [contradiction |].
  reflexivity.
Qed.

Lemma render_unhandled_type_witness :
  notify_out_operand Example.reg_names Example.NONE_REG Example.name_expr
    (op.mk Ida.o_phrase 1 2 3 0 0 0 0 0) = ([], Py.Ok true).
Proof.
  apply (render_unhandled_type Example.reg_names Example.NONE_REG
           Example.name_expr (op.mk Ida.o_phrase 1 2 3 0 0 0 0 0));
    vm_compute; discriminate.
Defined.

(** ** What the instruction renderer reads *)

(** X15: The line of an instruction is made from its [itype] and its first two
    operand slots alone: records that agree on these are rendered alike,
    whatever the other slots, the address or the size hold. *)
Theorem notify_out_insn_reads_two_slots (table : list cls.t)
    (reg_names : list string) (NONE_REG : Z)
    (name_expr : op.t -> Z -> Z -> option string) (i j : insn.t) :
  insn.itype i = insn.itype j ->
  insn.getitem i 0 = insn.getitem j 0 ->
  insn.getitem i 1 = insn.getitem j 1 ->
  notify_out_insn table reg_names NONE_REG name_expr i
  = notify_out_insn table reg_names NONE_REG name_expr j.
Proof.
  intros Hit H0 H1.
  unfold notify_out_insn, out_one_operand, get_canon_feature, canon_entry.
  now rewrite Hit, H0, H1.
Qed.

Lemma notify_out_insn_reads_two_slots_witness :
  notify_out_insn Example.table Example.reg_names Example.NONE_REG
    Example.name_expr
    (insn.mk 0x10 6 3 [op.mk Ida.o_reg 1 0 0 0 0 0 0 0;
                       op.mk Ida.o_reg 2 0 0 0 0 0 0 0;
                       op.mk Ida.o_reg 3 0 0 0 0 0 0 0])
  = notify_out_insn Example.table Example.reg_names Example.NONE_REG
      Example.name_expr
      (insn.mk 0x99 6 1 [op.mk Ida.o_reg 1 0 0 0 0 0 0 0;
                         op.mk Ida.o_reg 2 0 0 0 0 0 0 0]).
Proof.
  apply (notify_out_insn_reads_two_slots Example.table Example.reg_names
           Example.NONE_REG Example.name_expr
           (insn.mk 0x10 6 3 [op.mk Ida.o_reg 1 0 0 0 0 0 0 0;
                              op.mk Ida.o_reg 2 0 0 0 0 0 0 0;
                              op.mk Ida.o_reg 3 0 0 0 0 0 0 0])
           (insn.mk 0x99 6 1 [op.mk Ida.o_reg 1 0 0 0 0 0 0 0;
                              op.mk Ida.o_reg 2 0 0 0 0 0 0 0]));
    reflexivity.
Defined.

(** ** What the matcher depends on *)

(** X8: Classes behind the first one that matches are never looked at: a later
    class with the same opcode is shadowed, and replacing the rest of the
    table changes neither the record nor the answer. *)
Theorem notify_ana_later_classes_ignored (l1 l2 l2' : list cls.t) (c : cls.t)
    (get_byte : Z -> Z) (i : insn.t) :
  Forall (fun d => cls.opcode d <> get_byte (insn.ea i)) l1 ->
  cls.opcode c = get_byte (insn.ea i) ->
  notify_ana (l1 ++ c :: l2) get_byte i
  = notify_ana (l1 ++ c :: l2') get_byte i.
Proof.
  intros Hl1 Hc.
  rewrite (notify_ana_match (l1 ++ c :: l2) get_byte l1 c l2 i eq_refl Hl1 Hc).
  now rewrite (notify_ana_match (l1 ++ c :: l2') get_byte l1 c l2' i eq_refl
                 Hl1 Hc).
Qed.

Lemma notify_ana_later_classes_ignored_witness :
  notify_ana [Example.nop; Example.ldi;
              cls.mk 0x01 "ldx" 0 5 Example.emulate_none]
    (Ida.get_byte [0x01; 0x2A]) (Example.fresh 0)
  = notify_ana [Example.nop; Example.ldi] (Ida.get_byte [0x01; 0x2A])
      (Example.fresh 0).
Proof.
  apply (notify_ana_later_classes_ignored [Example.nop]
           [cls.mk 0x01 "ldx" 0 5 Example.emulate_none] [] Example.ldi
           (Ida.get_byte [0x01; 0x2A]) (Example.fresh 0)).
  - repeat constructor; vm_compute; discriminate.
  - reflexivity.
Defined.

(** X9: The matcher itself asks the host for one byte, the one at [ea]: two
    program images that agree on that byte, and on which the decodes of the
    classes agree, give the same record and the same answer. *)
Theorem notify_ana_reads_one_byte (table : list cls.t)
    (get_byte get_byte' : Z -> Z) (i : insn.t) :
  get_byte (insn.ea i) = get_byte' (insn.ea i) ->
  (forall c j, In c table ->
     cls.emulate c get_byte j = cls.emulate c get_byte' j) ->
  notify_ana table get_byte i = notify_ana table get_byte' i.
Proof.
  intros Hb He.
  destruct (first_match_split (get_byte (insn.ea i)) table)
    as [(l1 & c & l2 & Ht & Hl1 & Hc) | Hnone].
  - rewrite (notify_ana_match table get_byte l1 c l2 i Ht Hl1 Hc).
    rewrite Hb in Hl1, Hc.
    rewrite (notify_ana_match table get_byte' l1 c l2 i Ht Hl1 Hc).
    unfold decoded. rewrite He; [reflexivity |].
    subst table. apply in_or_app. right. now left.
  - rewrite (notify_ana_nomatch table get_byte i Hnone).
    rewrite Hb in Hnone.
    now rewrite (notify_ana_nomatch table get_byte' i Hnone).
Qed.

Lemma notify_ana_reads_one_byte_witness :
  notify_ana [Example.nop; Example.hlt] (Ida.get_byte [0x04; 0x11; 0x22])
    (Example.fresh 0)
  = notify_ana [Example.nop; Example.hlt] (Ida.get_byte [0x04])
      (Example.fresh 0).
Proof.
  apply (notify_ana_reads_one_byte [Example.nop; Example.hlt]
           (Ida.get_byte [0x04; 0x11; 0x22]) (Ida.get_byte [0x04])
           (Example.fresh 0)).
  - reflexivity.
  - intros c j Hin. simpl in Hin.
    destruct Hin as [<- | [<- | []]]; reflexivity.
Defined.
